(** * BeamCalc: a shallow embedding of [src/app/beam/BeamCalc.tsx]

    The calculator's only logic is the function [compute]: a completeness
    gate, a conversion of the user's quantities (US or Metric) to SI, and the
    closed-form formulas of a simply supported beam.

    ** Two number models

    [compute] is embedded twice, with the same control structure and two
    readings of a JavaScript [number].

    In module [BeamCalc] a number is either [NaN] or a finite value carried
    as an exact rational ([Qc], canonical fractions, with Leibniz equality).
    Every finite double is such a rational, and every decimal literal of the
    source is written with the same digits.  This is the reading "over real
    arithmetic": operations do not round, overflow or underflow, and a
    quotient by zero is collapsed to [NaN] ([compute_no_zero_divisor] shows
    that this model never divides by zero past the gate).  It is faithful
    for what does not depend on the result of an arithmetic operation (the
    gate, the form's edits, which expression fills which field) and for
    values to a stated tolerance at ordinary inputs.

    In module [Double] a number is an IEEE-754 binary64 value, and [*] and
    [/] are the machine's.  There a result past the gate can hold a zero, an
    infinity or a [NaN], and expressions that are equal as rationals are
    different doubles.  Statements about the bits of a value are made on
    this model. *)

From Stdlib Require Import QArith Qcanon Bool.
From Stdlib Require Import PrimFloat.

Module BeamCalc.

(** ** Numbers *)

Inductive number : Type :=
| NaN
| Fin (q : Qc).

(** A decimal literal of the source. *)
Definition lit (q : Q) : number := Fin (Q2Qc q).

(** JavaScript truthiness of a number: [0] and [NaN] are falsy. *)
Definition truthy (x : number) : bool :=
  match x with
  | NaN => false
  | Fin q => negb (Qc_eq_bool q 0)
  end.

Definition mul (a b : number) : number :=
  match a, b with
  | Fin x, Fin y => Fin (x * y)%Qc
  | _, _ => NaN
  end.

Definition div (a b : number) : number :=
  match a, b with
  | Fin x, Fin y => if Qc_eq_bool y 0 then NaN else Fin (x / y)%Qc
  | _, _ => NaN
  end.

(** [Math.pow] at a literal natural exponent, the only way the source calls
    it.  [Math.pow(x, 0)] is [1] for every [x], [NaN] included. *)
Definition Math_pow (a : number) (n : nat) : number :=
  match n, a with
  | O, _ => lit 1
  | _, Fin x => Fin (x ^ n)%Qc
  | _, NaN => NaN
  end.

Declare Scope js_scope.
Delimit Scope js_scope with js.
Bind Scope js_scope with number.
Infix "*" := mul : js_scope.
Infix "/" := div : js_scope.

Local Open Scope js_scope.

(** ** Types *)

Inductive Units : Type := US | Metric.

Inductive LoadType : Type :=
| UDL              (* "UDL" *)
| PointMidspan.    (* "Point (midspan)" *)

Record Inputs : Type := {
  units : Units;
  span : number;        (* length (in or mm depending on units) *)
  E : number;           (* modulus (ksi or GPa) *)
  I : number;           (* moment of inertia (in^4 or mm^4) *)
  loadType : LoadType;
  w : number;           (* UDL magnitude (kip/in or kN/mm) *)
  P : number            (* point load magnitude (kip or kN) *)
}.

(** ** Unit helpers *)

Definition IN_TO_M : number := lit 0.0254.
Definition MM_TO_M : number := lit 0.001.
Definition KIP_TO_KN : number := lit 4.4482216153.
Definition KSI_TO_GPA : number := lit 6.89475729 / lit 1000.
Definition KSI_TO_GPA_CORRECT : number := lit 0.006894757293168361.

Definition KN_TO_KIP : number := lit 1 / KIP_TO_KN.
Definition M_TO_IN : number := lit 39.3700787402.
Definition M_TO_MM : number := lit 1000.

(** ** Mechanics *)

Record Results : Type := {
  R : number;        (* reaction at each support (kN) *)
  Vmax : number;     (* peak shear (kN) *)
  Mmax : number;     (* peak moment (kN.m) *)
  deflMax : number   (* max deflection (mm) *)
}.

(** The test of line 67: some required field is falsy. *)
Definition incomplete (inputs : Inputs) : bool :=
  let '(Build_Inputs units span E I loadType w P) := inputs in
  negb (truthy span) || negb (truthy E) || negb (truthy I)
  || (match loadType with UDL => negb (truthy w) | PointMidspan => negb (truthy P) end).

(** The five mutable locals of lines 70-74, as they stand at line 104. *)
Record Normalized : Type := {
  L_m : number;
  E_GPa : number;
  I_m4 : number;
  w_kN_per_m : number;
  P_kN : number
}.

(** Lines 70-103: each local starts at [0] and is assigned in the branch of
    the unit system; of the two loads only the active one is assigned. *)
Definition normalize (inputs : Inputs) : Normalized :=
  let '(Build_Inputs units span E I loadType w P) := inputs in
  let L_m := lit 0 in
  let E_GPa := lit 0 in
  let I_m4 := lit 0 in
  let w_kN_per_m := lit 0 in
  let P_kN := lit 0 in
  match units with
  | US =>
      let L_m := span * IN_TO_M in
      let E_GPa := E * KSI_TO_GPA_CORRECT in
      let IN4_TO_M4 := Math_pow IN_TO_M 4 in
      let I_m4 := I * IN4_TO_M4 in
      match loadType with
      | UDL =>
          let w_kN_per_m := w * KIP_TO_KN / IN_TO_M in
          Build_Normalized L_m E_GPa I_m4 w_kN_per_m P_kN
      | PointMidspan =>
          let P_kN := P * KIP_TO_KN in
          Build_Normalized L_m E_GPa I_m4 w_kN_per_m P_kN
      end
  | Metric =>
      let L_m := span * MM_TO_M in
      let E_GPa := E in
      let MM4_TO_M4 := Math_pow MM_TO_M 4 in
      let I_m4 := I * MM4_TO_M4 in
      match loadType with
      | UDL =>
          let w_kN_per_m := w / MM_TO_M in
          Build_Normalized L_m E_GPa I_m4 w_kN_per_m P_kN
      | PointMidspan =>
          let P_kN := P in
          Build_Normalized L_m E_GPa I_m4 w_kN_per_m P_kN
      end
  end.

(** Line 105. *)
Definition E_kN_per_m2 (n : Normalized) : number := E_GPa n * lit 1e6.

(** Lines 107-131, on the locals left by the conversion. *)
Definition solve (loadType : LoadType) (n : Normalized) : Results :=
  let '(Build_Normalized L_m _ I_m4 w_kN_per_m P_kN) := n in
  let E_kN_per_m2 := E_kN_per_m2 n in
  let '(R_kN, Vmax_kN, Mmax_kN_m, defl_m) :=
    match loadType with
    | UDL =>
        let R_kN := (w_kN_per_m * L_m) / lit 2 in
        let Vmax_kN := R_kN in
        let Mmax_kN_m := (w_kN_per_m * Math_pow L_m 2) / lit 8 in
        let defl_m :=
          (lit 5 * w_kN_per_m * Math_pow L_m 4) / (lit 384 * E_kN_per_m2 * I_m4) in
        (R_kN, Vmax_kN, Mmax_kN_m, defl_m)
    | PointMidspan =>
        let R_kN := P_kN / lit 2 in
        let Vmax_kN := R_kN in
        let Mmax_kN_m := (P_kN * L_m) / lit 4 in
        let defl_m := (P_kN * Math_pow L_m 3) / (lit 48 * E_kN_per_m2 * I_m4) in
        (R_kN, Vmax_kN, Mmax_kN_m, defl_m)
    end in
  let defl_mm := defl_m * M_TO_MM in
  {| R := R_kN; Vmax := Vmax_kN; Mmax := Mmax_kN_m; deflMax := defl_mm |}.

(** [compute], lines 65-132: [None] is the source's [null]. *)
Definition compute (inputs : Inputs) : option Results :=
  if incomplete inputs then None
  else Some (solve (loadType inputs) (normalize inputs)).

(** ** The form's numeric fields

    [numberInput] (lines 148-158) is called for the keys [span], [E], [I],
    [w] and [P]; its [onChange] replaces that one field of the record by the
    number [parseFloat] returned, which is [NaN] for an empty or non-numeric
    text. *)

Inductive NumericKey : Type := Kspan | KE | KI | Kw | KP.

Definition setNumber (name : NumericKey) (v : number) (inputs : Inputs) : Inputs :=
  let '(Build_Inputs units span E I loadType w P) := inputs in
  match name with
  | Kspan => Build_Inputs units v E I loadType w P
  | KE => Build_Inputs units span v I loadType w P
  | KI => Build_Inputs units span E v loadType w P
  | Kw => Build_Inputs units span E I loadType v P
  | KP => Build_Inputs units span E I loadType w v
  end.

(** The initial state of the form (lines 136-144). *)
Definition initialInputs : Inputs :=
  {| units := US; span := lit 120; E := lit 29000; I := lit 200;
     loadType := UDL; w := lit 0.001; P := lit 10 |}.

End BeamCalc.

(** ** Specification-side vocabulary *)

Module Spec.
Import BeamCalc.
Local Open Scope js_scope.

(** The magnitude that the active load kind reads. *)
Definition active (inputs : Inputs) : number :=
  match loadType inputs with
  | UDL => w inputs
  | PointMidspan => P inputs
  end.

(** The key of the magnitude that the active load kind does not read. *)
Definition inactiveKey (lt : LoadType) : NumericKey :=
  match lt with
  | UDL => KP
  | PointMidspan => Kw
  end.

(** A field that is zero or absent; an absent field reaches [compute] as
    [NaN], the number [parseFloat] gives for an empty text. *)
Definition missing (x : number) : Prop := x = NaN \/ x = lit 0.

(** A finite, non-zero field (of either sign). *)
Definition nonzero (x : number) : Prop := exists q : Qc, x = Fin q /\ q <> 0%Qc.

Definition negative (x : number) : Prop := exists q : Qc, x = Fin q /\ (q < 0)%Qc.

(** [x] is the decimal [v] to the precision shown: within [half], half a
    unit of the last digit written. *)
Definition approx (x : number) (v half : Q) : Prop :=
  exists q : Qc, x = Fin q /\ (v - half <= q)%Q /\ (q <= v + half)%Q.

(** Two records that agree on everything [compute] is meant to read: all
    fields but the inactive magnitude. *)
Definition agreeOnActive (a b : Inputs) : Prop :=
  units a = units b /\ span a = span b /\ E a = E b /\ I a = I b /\
  loadType a = loadType b /\ active a = active b.

(** The Metric record of the beam and load that a US record describes:
    inches to millimetres (x 25.4), ksi to GPa, in^4 to mm^4, kip/in to
    kN/mm and kip to kN. *)
Definition equivalentMetric (us : Inputs) : Inputs :=
  {| units := Metric;
     span := span us * lit 25.4;
     E := E us * lit 0.006894757293168361;
     I := I us * Math_pow (lit 25.4) 4;
     loadType := loadType us;
     w := w us * lit 4.4482216153 / lit 25.4;
     P := P us * lit 4.4482216153 |}.

(** The US, distributed-load scenario: span 120 in, E 29000 ksi, I 200 in^4,
    w 0.001 kip/in; the point magnitude [p] is not part of the scenario. *)
Definition scenarioUS (p : number) : Inputs :=
  {| units := US; span := lit 120; E := lit 29000; I := lit 200;
     loadType := UDL; w := lit 0.001; P := p |}.

(** The Metric, point-load scenario: span 3000 mm, E 200 GPa,
    I 8.333e7 mm^4, P 10 kN. *)
Definition scenarioMetric (wv : number) : Inputs :=
  {| units := Metric; span := lit 3000; E := lit 200; I := lit 8.333e7;
     loadType := PointMidspan; w := wv; P := lit 10 |}.

End Spec.

(** ** The form's other handlers *)

Module Form.
Import BeamCalc.

(** [inputs[name]], the value a numeric field shows (line 154). *)
Definition getNumber (name : NumericKey) (inputs : Inputs) : number :=
  match name with
  | Kspan => span inputs
  | KE => E inputs
  | KI => I inputs
  | Kw => w inputs
  | KP => P inputs
  end.

(** The unit selector's [onChange] (line 173): the record with [units]
    replaced and every number left as typed. *)
Definition setUnits (u : Units) (inputs : Inputs) : Inputs :=
  let '(Build_Inputs _ span E I loadType w P) := inputs in
  Build_Inputs u span E I loadType w P.

End Form.

(** ** Vocabulary of the laws of [compute] *)

Module Laws.
Import BeamCalc.
Local Open Scope Qc_scope.

(** The key of the magnitude that the active load kind reads. *)
Definition activeKey (lt : LoadType) : NumericKey :=
  match lt with
  | UDL => Kw
  | PointMidspan => KP
  end.

(** The converted quantities of [normalize] on finite fields. *)
Definition lengthSI (u : Units) (s : Qc) : Qc :=
  match u with
  | US => s * Q2Qc 0.0254
  | Metric => s * Q2Qc 0.001
  end.

Definition modulusSI (u : Units) (e : Qc) : Qc :=
  match u with
  | US => e * Q2Qc 0.006894757293168361 * Q2Qc 1e6
  | Metric => e * Q2Qc 1e6
  end.

Definition inertiaSI (u : Units) (i0 : Qc) : Qc :=
  match u with
  | US => i0 * Q2Qc 0.0254 ^ 4
  | Metric => i0 * Q2Qc 0.001 ^ 4
  end.

Definition loadSI (u : Units) (lt : LoadType) (a : Qc) : Qc :=
  match u, lt with
  | US, UDL => a * Q2Qc 4.4482216153 / Q2Qc 0.0254
  | US, PointMidspan => a * Q2Qc 4.4482216153
  | Metric, UDL => a / Q2Qc 0.001
  | Metric, PointMidspan => a
  end.

(** The record [compute] returns past its gate, as a function of the finite
    values of the fields it reads. *)
Definition closedForm (u : Units) (lt : LoadType) (s e i0 a : Qc) : Results :=
  let L := lengthSI u s in
  let Ek := modulusSI u e in
  let Im := inertiaSI u i0 in
  let q := loadSI u lt a in
  match lt with
  | UDL =>
      {| R := Fin (q * L / Q2Qc 2);
         Vmax := Fin (q * L / Q2Qc 2);
         Mmax := Fin (q * L ^ 2 / Q2Qc 8);
         deflMax := Fin (Q2Qc 5 * q * L ^ 4 / (Q2Qc 384 * Ek * Im) * Q2Qc 1000) |}
  | PointMidspan =>
      {| R := Fin (q / Q2Qc 2);
         Vmax := Fin (q / Q2Qc 2);
         Mmax := Fin (q * L / Q2Qc 4);
         deflMax := Fin (q * L ^ 3 / (Q2Qc 48 * Ek * Im) * Q2Qc 1000) |}
  end.

End Laws.

(** ** The same program on binary64 numbers

    The second embedding carries a JavaScript [number] as what it is, an
    IEEE-754 binary64 value ([PrimFloat.float]): [*] and [/] round to
    nearest-even, overflow to an infinity and underflow to zero, a decimal
    literal denotes the nearest double, and [x / 0] is an infinity or
    [NaN].  [Math.pow] is the one operation whose bits the language leaves to
    the implementation; it is a parameter [Math_pow] of every definition
    that calls it, and every statement below holds for each value of it. *)

Module Double.

Local Open Scope float_scope.
Local Set Warnings "-inexact-float".

Definition number : Type := float.

(** JavaScript truthiness of a number: [+0], [-0] and [NaN] are falsy;
    [x =? x] is [false] for [NaN] alone. *)
Definition truthy (x : number) : bool := negb ((x =? 0) || negb (x =? x)).

Record Inputs : Type := {
  units : BeamCalc.Units;
  span : number;        (* length (in or mm depending on units) *)
  E : number;           (* modulus (ksi or GPa) *)
  I : number;           (* moment of inertia (in^4 or mm^4) *)
  loadType : BeamCalc.LoadType;
  w : number;           (* UDL magnitude (kip/in or kN/mm) *)
  P : number            (* point load magnitude (kip or kN) *)
}.

Definition IN_TO_M : number := 0.0254.
Definition MM_TO_M : number := 0.001.
Definition KIP_TO_KN : number := 4.4482216153.
Definition KSI_TO_GPA : number := 6.89475729 / 1000.
Definition KSI_TO_GPA_CORRECT : number := 0.006894757293168361.

Definition KN_TO_KIP : number := 1 / KIP_TO_KN.
Definition M_TO_IN : number := 39.3700787402.
Definition M_TO_MM : number := 1000.

Record Results : Type := {
  R : number;        (* reaction at each support (kN) *)
  Vmax : number;     (* peak shear (kN) *)
  Mmax : number;     (* peak moment (kN.m) *)
  deflMax : number   (* max deflection (mm) *)
}.

(** The test of line 67. *)
Definition incomplete (inputs : Inputs) : bool :=
  let '(Build_Inputs units span E I loadType w P) := inputs in
  negb (truthy span) || negb (truthy E) || negb (truthy I)
  || (match loadType with
      | BeamCalc.UDL => negb (truthy w)
      | BeamCalc.PointMidspan => negb (truthy P)
      end).

Record Normalized : Type := {
  L_m : number;
  E_GPa : number;
  I_m4 : number;
  w_kN_per_m : number;
  P_kN : number
}.

(** Line 105. *)
Definition E_kN_per_m2 (n : Normalized) : number := E_GPa n * 1e6.

Section MathPow.

Variable Math_pow : number -> number -> number.

(** Lines 70-103. *)
Definition normalize (inputs : Inputs) : Normalized :=
  let '(Build_Inputs units span E I loadType w P) := inputs in
  let L_m := 0 in
  let E_GPa := 0 in
  let I_m4 := 0 in
  let w_kN_per_m := 0 in
  let P_kN := 0 in
  match units with
  | BeamCalc.US =>
      let L_m := span * IN_TO_M in
      let E_GPa := E * KSI_TO_GPA_CORRECT in
      let IN4_TO_M4 := Math_pow IN_TO_M 4 in
      let I_m4 := I * IN4_TO_M4 in
      match loadType with
      | BeamCalc.UDL =>
          let w_kN_per_m := w * KIP_TO_KN / IN_TO_M in
          Build_Normalized L_m E_GPa I_m4 w_kN_per_m P_kN
      | BeamCalc.PointMidspan =>
          let P_kN := P * KIP_TO_KN in
          Build_Normalized L_m E_GPa I_m4 w_kN_per_m P_kN
      end
  | BeamCalc.Metric =>
      let L_m := span * MM_TO_M in
      let E_GPa := E in
      let MM4_TO_M4 := Math_pow MM_TO_M 4 in
      let I_m4 := I * MM4_TO_M4 in
      match loadType with
      | BeamCalc.UDL =>
          let w_kN_per_m := w / MM_TO_M in
          Build_Normalized L_m E_GPa I_m4 w_kN_per_m P_kN
      | BeamCalc.PointMidspan =>
          let P_kN := P in
          Build_Normalized L_m E_GPa I_m4 w_kN_per_m P_kN
      end
  end.

(** Lines 107-131. *)
Definition solve (loadType : BeamCalc.LoadType) (n : Normalized) : Results :=
  let '(Build_Normalized L_m _ I_m4 w_kN_per_m P_kN) := n in
  let E_kN_per_m2 := E_kN_per_m2 n in
  let '(R_kN, Vmax_kN, Mmax_kN_m, defl_m) :=
    match loadType with
    | BeamCalc.UDL =>
        let R_kN := (w_kN_per_m * L_m) / 2 in
        let Vmax_kN := R_kN in
        let Mmax_kN_m := (w_kN_per_m * Math_pow L_m 2) / 8 in
        let defl_m :=
          (5 * w_kN_per_m * Math_pow L_m 4) / (384 * E_kN_per_m2 * I_m4) in
        (R_kN, Vmax_kN, Mmax_kN_m, defl_m)
    | BeamCalc.PointMidspan =>
        let R_kN := P_kN / 2 in
        let Vmax_kN := R_kN in
        let Mmax_kN_m := (P_kN * L_m) / 4 in
        let defl_m := (P_kN * Math_pow L_m 3) / (48 * E_kN_per_m2 * I_m4) in
        (R_kN, Vmax_kN, Mmax_kN_m, defl_m)
    end in
  let defl_mm := defl_m * M_TO_MM in
  {| R := R_kN; Vmax := Vmax_kN; Mmax := Mmax_kN_m; deflMax := defl_mm |}.

(** [compute], lines 65-132. *)
Definition compute (inputs : Inputs) : option Results :=
  if incomplete inputs then None
  else Some (solve (loadType inputs) (normalize inputs)).

(** Specification side: the Metric record of the beam and load that a US
    record describes, each field converted in binary64 by the stated
    factors (inches to millimetres x 25.4, ksi to GPa, in^4 to mm^4,
    kip/in to kN/mm, kip to kN). *)
Definition equivalentMetric (us : Inputs) : Inputs :=
  {| units := BeamCalc.Metric;
     span := span us * 25.4;
     E := E us * 0.006894757293168361;
     I := I us * Math_pow 25.4 4;
     loadType := loadType us;
     w := w us * 4.4482216153 / 25.4;
     P := P us * 4.4482216153 |}.

End MathPow.

(** The smallest positive double, [5e-324]. *)
Definition MIN_VALUE : number := 0x1p-1074.

(** A US distributed-load record with truthy span, modulus, inertia and
    load, the load being the smallest positive double. *)
Definition tinyLoadUS : Inputs :=
  {| units := BeamCalc.US; span := 120; E := 29000; I := 200;
     loadType := BeamCalc.UDL; w := MIN_VALUE; P := 10 |}.

End Double.

Import BeamCalc Spec Form Laws.
Local Open Scope js_scope.

(** * Arithmetic of the exact number model *)

Section Numbers.

Local Open Scope Qc_scope.

Lemma Qc_eq_bool_true (x y : Qc) : Qc_eq_bool x y = true <-> x = y.
Proof.
  split; [apply Qc_eq_bool_correct|].
  intros ->. unfold Qc_eq_bool. destruct (Qc_eq_dec y y); congruence.
Qed.

Lemma Qc_eq_bool_false (x y : Qc) : Qc_eq_bool x y = false <-> x <> y.
Proof.
  rewrite <- Qc_eq_bool_true. destruct (Qc_eq_bool x y); split; congruence.
Qed.

Lemma Qcmult_neq0 (x y : Qc) : x <> 0 -> y <> 0 -> x * y <> 0.
Proof. intros Hx Hy H. destruct (Qcmult_integral _ _ H); contradiction. Qed.

Lemma Qcinv_neq0 (x : Qc) : x <> 0 -> / x <> 0.
Proof.
  intros Hx H. apply Q_apart_0_1.
  rewrite <- (Qcmult_inv_r x Hx), H. apply Qcmult_0_r.
Qed.

Lemma Qcdiv_neq0 (x y : Qc) : x <> 0 -> y <> 0 -> x / y <> 0.
Proof. intros Hx Hy. apply Qcmult_neq0; [assumption | now apply Qcinv_neq0]. Qed.

Lemma Qcpower_neq0 (x : Qc) (n : nat) : x <> 0 -> x ^ n <> 0.
Proof.
  intros Hx. induction n as [|n IH]; simpl.
  - apply Q_apart_0_1.
  - now apply Qcmult_neq0.
Qed.

Lemma mul_Fin (x y : Qc) : (Fin x * Fin y)%js = Fin (x * y).
Proof. reflexivity. Qed.

Lemma div_Fin (x y : Qc) : y <> 0 -> (Fin x / Fin y)%js = Fin (x / y).
Proof. intros Hy. unfold div. apply Qc_eq_bool_false in Hy. now rewrite Hy. Qed.

Lemma pow_Fin (x : Qc) (n : nat) : Math_pow (Fin x) n = Fin (x ^ n).
Proof. destruct n; reflexivity. Qed.

Lemma truthy_true (x : number) : truthy x = true <-> nonzero x.
Proof.
  unfold nonzero. destruct x as [|q]; simpl.
  - split; [discriminate | intros (q & H & _); discriminate].
  - rewrite negb_true_iff, Qc_eq_bool_false. split.
    + intros H. now exists q.
    + intros (q' & [= ->] & H). exact H.
Qed.

Lemma truthy_false (x : number) : truthy x = false <-> missing x.
Proof.
  unfold missing. destruct x as [|q]; simpl.
  - split; [now left | reflexivity].
  - rewrite negb_false_iff, Qc_eq_bool_true. split.
    + intros ->. now right.
    + intros [H | [= ->]]; [discriminate | reflexivity].
Qed.

End Numbers.

(** * The completeness gate *)

Section Gate.

Lemma incomplete_true (i : Inputs) :
  incomplete i = true <->
  missing (span i) \/ missing (E i) \/ missing (I i) \/ missing (active i).
Proof.
  destruct i as [u s e i0 lt wv pv]. unfold active. simpl.
  rewrite !orb_true_iff, <- !truthy_false.
  destruct lt; simpl; rewrite !negb_true_iff; tauto.
Qed.

Lemma incomplete_false (i : Inputs) :
  incomplete i = false <->
  nonzero (span i) /\ nonzero (E i) /\ nonzero (I i) /\ nonzero (active i).
Proof.
  destruct i as [u s e i0 lt wv pv]. unfold active. simpl.
  rewrite !orb_false_iff, <- !truthy_true.
  destruct lt; simpl; rewrite !negb_false_iff; tauto.
Qed.

Lemma compute_None (i : Inputs) : compute i = None <-> incomplete i = true.
Proof. unfold compute. destruct (incomplete i); split; congruence. Qed.

Lemma NaN_missing (x : number) : x = NaN -> missing x.
Proof. now left. Qed.

End Gate.

(** * Conversion and formulas on complete inputs *)

Ltac nz :=
  repeat match goal with
    | |- _ <> _ => assumption
    | |- (_ / _)%Qc <> _ => apply Qcdiv_neq0
    | |- (_ * _)%Qc <> _ => apply Qcmult_neq0
    | |- (/ _)%Qc <> _ => apply Qcinv_neq0
    | |- (_ ^ _)%Qc <> _ => apply Qcpower_neq0
    | |- Q2Qc _ <> _ => apply Qc_eq_bool_false; vm_compute; reflexivity
    end.

Ltac js_norm :=
  unfold E_kN_per_m2, IN_TO_M, MM_TO_M, KIP_TO_KN, KSI_TO_GPA_CORRECT, M_TO_MM, lit;
  cbn [L_m E_GPa I_m4 w_kN_per_m P_kN];
  repeat first [ rewrite mul_Fin | rewrite pow_Fin | rewrite div_Fin by nz ].

Section Formulas.

Local Open Scope Qc_scope.

(** Past the gate [compute] returns the record of [solve]. *)
Lemma compute_Some (i : Inputs) :
  incomplete i = false -> compute i = Some (solve (loadType i) (normalize i)).
Proof. intros Hgate. unfold compute. now rewrite Hgate. Qed.

(** In exact arithmetic every divisor that [compute] meets past its gate is
    finite and not zero (in binary64 a divisor can underflow to zero):
    the two literal unit factors, the literals 2, 8 and 4, and the stiffness
    terms [384 E I] and [48 E I]. *)
Lemma compute_no_zero_divisor (i : Inputs) :
  incomplete i = false ->
  nonzero IN_TO_M /\ nonzero MM_TO_M /\
  nonzero (lit 2) /\ nonzero (lit 8) /\ nonzero (lit 4) /\
  nonzero (lit 384 * E_kN_per_m2 (normalize i) * I_m4 (normalize i))%js /\
  nonzero (lit 48 * E_kN_per_m2 (normalize i) * I_m4 (normalize i))%js.
Proof.
  intros Hgate. apply incomplete_false in Hgate.
  destruct Hgate as ((sq & Hs & Hs') & (eq & He & He') & (iq & Hi & Hi') & _).
  destruct i as [u s e i0 lt wv pv]. cbn [span E I] in Hs, He, Hi. subst s e i0.
  repeat split;
    try (eexists; split; [reflexivity | nz]);
    destruct u, lt; unfold normalize; js_norm; eexists; (split; [reflexivity | nz]).
Qed.

End Formulas.

(** * Properties of [compute] *)

Section GateProperties.

Lemma gate_UDL (i : Inputs) :
  truthy (span i) = true -> truthy (E i) = true -> truthy (I i) = true ->
  truthy (w i) = true -> loadType i = UDL -> incomplete i = false.
Proof.
  destruct i as [u s e i0 lt wv pv]. cbn [span E I w loadType incomplete].
  intros -> -> -> -> ->. reflexivity.
Qed.

Lemma gate_Point (i : Inputs) :
  truthy (span i) = true -> truthy (E i) = true -> truthy (I i) = true ->
  truthy (P i) = true -> loadType i = PointMidspan -> incomplete i = false.
Proof.
  destruct i as [u s e i0 lt wv pv]. cbn [span E I P loadType incomplete].
  intros -> -> -> -> ->. reflexivity.
Qed.

(** C3. An input in which the span, the modulus, the inertia or the
    magnitude of the active load kind is zero or absent gets the no-result
    signal [None], hence no result record at all, partial or zero-filled. *)
Theorem compute_missing_field_is_null (i : Inputs) :
  missing (span i) \/ missing (E i) \/ missing (I i) \/ missing (active i) ->
  compute i = None.
Proof. intros H. apply compute_None, incomplete_true, H. Qed.

(** The instance the claim singles out: a zero span, everything else as in
    the form's initial state, under either load kind. *)
Lemma compute_missing_field_is_null_witness :
  compute {| units := US; span := lit 0; E := lit 29000; I := lit 200;
             loadType := UDL; w := lit 0.001; P := lit 10 |} = None /\
  compute {| units := US; span := lit 0; E := lit 29000; I := lit 200;
             loadType := PointMidspan; w := lit 0.001; P := lit 10 |} = None.
Proof.
  split; apply compute_missing_field_is_null; left; right; reflexivity.
Defined.

Lemma NaN_field_is_null (i : Inputs) :
  span i = NaN \/ E i = NaN \/ I i = NaN \/ active i = NaN ->
  compute i = None.
Proof.
  intros H. apply compute_None, incomplete_true.
  destruct H as [H | [H | [H | H]]]; auto 6 using NaN_missing.
Qed.

(** C9. A [NaN] in the span, the modulus, the inertia or the active
    magnitude gives the no-result signal; no result record carries it. *)
Theorem compute_NaN_is_null (i : Inputs) :
  span i = NaN \/ E i = NaN \/ I i = NaN \/ active i = NaN ->
  compute i = None.
Proof. exact (NaN_field_is_null i). Qed.

Lemma compute_NaN_is_null_witness :
  compute (setNumber KE NaN initialInputs) = None.
Proof. apply compute_NaN_is_null. right; left. reflexivity. Defined.

(** The same through the form: when the text of a required field does not
    parse, [onChange] stores [NaN] under its key and the next [compute] is
    [None].  The key of the inactive magnitude is the one exception. *)
Lemma onChange_NaN_is_null (name : NumericKey) (i : Inputs) :
  name <> inactiveKey (loadType i) ->
  compute (setNumber name NaN i) = None.
Proof.
  intros Hname. apply NaN_field_is_null.
  destruct i as [u s e i0 lt wv pv]. unfold active.
  destruct name, lt; cbn in Hname |- *; auto; contradiction.
Qed.

(** C10. [compute] is [None] exactly when a required field is zero or
    [NaN]; the sign of a field is never looked at, so non-zero required
    fields of any sign give a result record, and some of those records
    hold negative values. *)
Theorem gate_exact_and_sign_blind :
  (forall i : Inputs,
      compute i = None <->
      missing (span i) \/ missing (E i) \/ missing (I i) \/ missing (active i)) /\
  (forall i : Inputs,
      nonzero (span i) -> nonzero (E i) -> nonzero (I i) -> nonzero (active i) ->
      exists r, compute i = Some r) /\
  (exists r,
      compute (setNumber Kspan (lit (-120)) initialInputs) = Some r /\
      negative (R r) /\ negative (Vmax r)).
Proof.
  split; [|split].
  - intros i. rewrite compute_None. apply incomplete_true.
  - intros i Hs He Hi Ha. eexists. apply compute_Some, incomplete_false. auto.
  - eexists. split; [reflexivity|].
    split; (eexists; split; [reflexivity | vm_compute; reflexivity]).
Qed.

Lemma gate_exact_and_sign_blind_witness :
  exists r,
    compute {| units := Metric; span := lit (-3000); E := lit (-200);
               I := lit (-8.333e7); loadType := PointMidspan;
               w := NaN; P := lit (-10) |} = Some r.
Proof.
  apply (proj1 (proj2 gate_exact_and_sign_blind));
    (eexists; split; [reflexivity | apply Qc_eq_bool_false; vm_compute; reflexivity]).
Defined.

End GateProperties.

Section FormulaProperties.

(** C1. With a distributed load and truthy span, modulus, inertia and [w],
    [compute] returns a result whose fields are, on the converted locals
    [w_kN_per_m] (kN/m), [L_m] (m), [E_kN_per_m2] (kN/m^2) and [I_m4]
    (m^4): reaction [w L / 2], peak shear the same number, peak moment
    [w L^2 / 8] and deflection [5 w L^4 / (384 E I)] times 1000, each
    written with the program's own operations in the program's grouping. *)
Theorem compute_distributed (i : Inputs) :
  truthy (span i) = true -> truthy (E i) = true -> truthy (I i) = true ->
  truthy (w i) = true -> loadType i = UDL ->
  let n := normalize i in
  compute i =
    Some {| R := w_kN_per_m n * L_m n / lit 2;
            Vmax := w_kN_per_m n * L_m n / lit 2;
            Mmax := w_kN_per_m n * Math_pow (L_m n) 2 / lit 8;
            deflMax := lit 5 * w_kN_per_m n * Math_pow (L_m n) 4
                       / (lit 384 * E_kN_per_m2 n * I_m4 n) * lit 1000 |}.
Proof.
  intros Hs He Hi Hw Hlt n.
  rewrite (compute_Some i (gate_UDL i Hs He Hi Hw Hlt)), Hlt.
  subst n. destruct (normalize i) as [L Eg Im wq Pq]. reflexivity.
Qed.

Lemma compute_distributed_witness :
  exists r, compute initialInputs = Some r /\ Vmax r = R r.
Proof.
  eexists. split.
  - apply (compute_distributed initialInputs); reflexivity.
  - reflexivity.
Defined.

(** C2. With a midspan point load and truthy span, modulus, inertia and
    [P], [compute] returns a result whose fields are, on the converted
    locals [P_kN] (kN), [L_m] (m), [E_kN_per_m2] (kN/m^2) and [I_m4] (m^4):
    reaction [P / 2], peak shear the same number, peak moment [P L / 4] and
    deflection [P L^3 / (48 E I)] times 1000, each written with the
    program's own operations in the program's grouping. *)
Theorem compute_midspan_point (i : Inputs) :
  truthy (span i) = true -> truthy (E i) = true -> truthy (I i) = true ->
  truthy (P i) = true -> loadType i = PointMidspan ->
  let n := normalize i in
  compute i =
    Some {| R := P_kN n / lit 2;
            Vmax := P_kN n / lit 2;
            Mmax := P_kN n * L_m n / lit 4;
            deflMax := P_kN n * Math_pow (L_m n) 3
                       / (lit 48 * E_kN_per_m2 n * I_m4 n) * lit 1000 |}.
Proof.
  intros Hs He Hi Hp Hlt n.
  rewrite (compute_Some i (gate_Point i Hs He Hi Hp Hlt)), Hlt.
  subst n. destruct (normalize i) as [L Eg Im wq Pq]. reflexivity.
Qed.

Lemma compute_midspan_point_witness :
  exists r, compute (scenarioMetric (lit 0)) = Some r /\ Vmax r = R r.
Proof.
  eexists. split.
  - apply (compute_midspan_point (scenarioMetric (lit 0))); reflexivity.
  - reflexivity.
Defined.

End FormulaProperties.

(** * Identities of rationals *)

Ltac qc_field :=
  apply Qc_is_canon;
  unfold Qcdiv, Qcinv, Qcmult, Qcpower; cbn [this Q2Qc Qcpower Qcmult];
  repeat rewrite Qred_correct;
  field.

Section Conversion.

Local Open Scope Qc_scope.

Lemma Qc_neq0_Q (x : Qc) : x <> 0 -> ~ (x == 0)%Q.
Proof. intros Hx H. apply Hx, Qc_is_canon, H. Qed.

End Conversion.

(** * The program on binary64 numbers *)

Section Binary64.

Local Open Scope float_scope.
Local Set Warnings "-inexact-float".

Lemma float_neq (x y : float) :
  (x =? y) = false -> (y =? y) = true -> x <> y.
Proof. intros Hne Hy Heq. subst y. congruence. Qed.

Lemma compute64_None (Math_pow : float -> float -> float) (i : Double.Inputs) :
  Double.compute Math_pow i = None <-> Double.incomplete i = true.
Proof. unfold Double.compute. destruct (Double.incomplete i); split; congruence. Qed.

(** The statements of C1 and C2 hold word for word of the binary64
    program, whatever [Math.pow] returns. *)
Lemma compute64_distributed (Math_pow : float -> float -> float) (i : Double.Inputs) :
  Double.incomplete i = false -> Double.loadType i = UDL ->
  let n := Double.normalize Math_pow i in
  Double.compute Math_pow i =
    Some {| Double.R := Double.w_kN_per_m n * Double.L_m n / 2;
            Double.Vmax := Double.w_kN_per_m n * Double.L_m n / 2;
            Double.Mmax := Double.w_kN_per_m n * Math_pow (Double.L_m n) 2 / 8;
            Double.deflMax :=
              5 * Double.w_kN_per_m n * Math_pow (Double.L_m n) 4
              / (384 * Double.E_kN_per_m2 n * Double.I_m4 n) * 1000 |}.
Proof.
  intros Hgate Hlt n. unfold Double.compute. rewrite Hgate, Hlt.
  subst n. destruct (Double.normalize Math_pow i). reflexivity.
Qed.

Lemma compute64_midspan_point (Math_pow : float -> float -> float) (i : Double.Inputs) :
  Double.incomplete i = false -> Double.loadType i = PointMidspan ->
  let n := Double.normalize Math_pow i in
  Double.compute Math_pow i =
    Some {| Double.R := Double.P_kN n / 2;
            Double.Vmax := Double.P_kN n / 2;
            Double.Mmax := Double.P_kN n * Double.L_m n / 4;
            Double.deflMax :=
              Double.P_kN n * Math_pow (Double.L_m n) 3
              / (48 * Double.E_kN_per_m2 n * Double.I_m4 n) * 1000 |}.
Proof.
  intros Hgate Hlt n. unfold Double.compute. rewrite Hgate, Hlt.
  subst n. destruct (Double.normalize Math_pow i). reflexivity.
Qed.

(** C4, as stated, fails on the doubles the program computes with: the US
    distributed load is not the typed number times the quotient
    4.4482216153 / 0.0254.  At [w = 0.01] the program's local is
    1.751268352480315 and that product is 1.7512683524803148. *)
Lemma distributed_load_not_times_quotient :
  exists wv : float,
    forall Math_pow : float -> float -> float,
      Double.w_kN_per_m
        (Double.normalize Math_pow
           {| Double.units := US; Double.span := 120; Double.E := 29000;
              Double.I := 200; Double.loadType := UDL;
              Double.w := wv; Double.P := 10 |})
      <> wv * (4.4482216153 / 0.0254).
Proof.
  exists 0.01. intros Math_pow. apply float_neq; vm_compute; reflexivity.
Qed.

(** C4, amended.  On binary64 numbers, for every value of the fields and
    of [Math.pow], the converted locals are: span x 0.0254 (US) or x 0.001
    (Metric); modulus x 0.006894757293168361 (US) or unchanged (Metric),
    then x 1,000,000; inertia x [Math.pow(0.0254, 4)] or
    x [Math.pow(0.001, 4)]; distributed load x 4.4482216153 with the
    product then divided by 0.0254 (US), or divided by 0.001 (Metric);
    point load x 4.4482216153 or unchanged.  Each is the double those
    operations give and nothing else is applied to it. *)
Theorem normalize_conversion_factors
    (Math_pow : float -> float -> float) (s e i0 wv pv : float) :
  let us lt := Double.Build_Inputs US s e i0 lt wv pv in
  let metric lt := Double.Build_Inputs Metric s e i0 lt wv pv in
  (forall lt, Double.L_m (Double.normalize Math_pow (us lt)) = s * 0.0254) /\
  (forall lt, Double.L_m (Double.normalize Math_pow (metric lt)) = s * 0.001) /\
  (forall lt, Double.E_GPa (Double.normalize Math_pow (us lt))
              = e * 0.006894757293168361) /\
  (forall lt, Double.E_GPa (Double.normalize Math_pow (metric lt)) = e) /\
  (forall lt, Double.E_kN_per_m2 (Double.normalize Math_pow (us lt))
              = e * 0.006894757293168361 * 1000000) /\
  (forall lt, Double.E_kN_per_m2 (Double.normalize Math_pow (metric lt))
              = e * 1000000) /\
  (forall lt, Double.I_m4 (Double.normalize Math_pow (us lt))
              = i0 * Math_pow 0.0254 4) /\
  (forall lt, Double.I_m4 (Double.normalize Math_pow (metric lt))
              = i0 * Math_pow 0.001 4) /\
  Double.w_kN_per_m (Double.normalize Math_pow (us UDL))
    = wv * 4.4482216153 / 0.0254 /\
  Double.w_kN_per_m (Double.normalize Math_pow (metric UDL)) = wv / 0.001 /\
  Double.P_kN (Double.normalize Math_pow (us PointMidspan)) = pv * 4.4482216153 /\
  Double.P_kN (Double.normalize Math_pow (metric PointMidspan)) = pv.
Proof.
  cbv zeta. repeat split; try intros lt; try destruct lt; reflexivity.
Qed.


End Binary64.

(** * Relational properties *)

Section UnitInvariance.

Local Open Scope Qc_scope.

Lemma truthy_mul_Fin (x : number) (c : Qc) :
  c <> 0 -> truthy (x * Fin c)%js = truthy x.
Proof.
  intros Hc. destruct x as [|q]; [reflexivity|]. cbn [mul truthy]. f_equal.
  destruct (Qc_eq_bool q 0) eqn:Hq.
  - apply Qc_eq_bool_true in Hq. subst q. rewrite Qcmult_0_l. now apply Qc_eq_bool_true.
  - apply Qc_eq_bool_false in Hq. apply Qc_eq_bool_false. now apply Qcmult_neq0.
Qed.

Lemma truthy_div_Fin (x : number) (c : Qc) :
  c <> 0 -> truthy (x / Fin c)%js = truthy x.
Proof.
  intros Hc. destruct x as [|q]; [reflexivity|]. rewrite div_Fin by assumption.
  cbn [truthy]. f_equal.
  destruct (Qc_eq_bool q 0) eqn:Hq.
  - apply Qc_eq_bool_true in Hq. subst q. unfold Qcdiv. rewrite Qcmult_0_l.
    now apply Qc_eq_bool_true.
  - apply Qc_eq_bool_false in Hq. apply Qc_eq_bool_false. now apply Qcdiv_neq0.
Qed.

Lemma incomplete_equivalentMetric (i : Inputs) :
  incomplete (equivalentMetric i) = incomplete i.
Proof.
  destruct i as [u s e i0 lt wv pv].
  unfold equivalentMetric, incomplete, lit. cbn [span E I w P loadType].
  rewrite pow_Fin.
  destruct lt; rewrite ?truthy_div_Fin by nz; rewrite !truthy_mul_Fin by nz;
    reflexivity.
Qed.

Lemma solve_equivalentMetric (i : Inputs) :
  units i = US -> incomplete i = false ->
  solve (loadType i) (normalize (equivalentMetric i)) = solve (loadType i) (normalize i).
Proof.
  intros Hu Hgate. apply incomplete_false in Hgate.
  destruct i as [u s e i0 lt wv pv]. unfold active in Hgate.
  cbn [units span E I w P loadType] in Hu, Hgate |- *. subst u.
  destruct Hgate as ((sq & -> & Hs) & (eq & -> & He) & (iq & -> & Hi) & Ha).
  pose proof (Qc_neq0_Q _ Hs). pose proof (Qc_neq0_Q _ He). pose proof (Qc_neq0_Q _ Hi).
  destruct lt; destruct Ha as (aq & -> & Ha); pose proof (Qc_neq0_Q _ Ha);
    unfold equivalentMetric, normalize, solve; cbn [units span E I w P loadType];
    js_norm; f_equal; f_equal; qc_field;
    repeat split; auto; intros X; vm_compute in X; discriminate X.
Qed.



End UnitInvariance.

Section Noninterference.

Lemma compute_reads_active_only (a b : Inputs) :
  agreeOnActive a b -> incomplete a = incomplete b /\ compute a = compute b.
Proof.
  destruct a as [u s e i0 lt wv pv], b as [u' s' e' i0' lt' wv' pv'].
  unfold agreeOnActive, active. cbn [units span E I loadType w P].
  intros (-> & -> & -> & -> & -> & Ha).
  destruct lt'; subst; split; reflexivity.
Qed.

(** C6. Two inputs that differ at most in the magnitude of the inactive
    load kind pass or fail the gate together and have the same outcome; in
    particular a point-load input with [w = 0] still gets a result when the
    span, the modulus, the inertia and [P] are supplied. *)
Theorem inactive_magnitude_noninterference :
  (forall a b : Inputs,
      agreeOnActive a b -> incomplete a = incomplete b /\ compute a = compute b) /\
  (forall (i : Inputs) (v : number),
      compute (setNumber (inactiveKey (loadType i)) v i) = compute i) /\
  (forall i : Inputs,
      loadType i = PointMidspan -> w i = lit 0 ->
      nonzero (span i) -> nonzero (E i) -> nonzero (I i) -> nonzero (P i) ->
      exists r, compute i = Some r).
Proof.
  split; [exact compute_reads_active_only | split].
  - intros i v. apply compute_reads_active_only.
    destruct i as [u s e i0 lt wv pv]. destruct lt; repeat split.
  - intros i Hlt _ Hs He Hi Hp. eexists. apply compute_Some, incomplete_false.
    unfold active. rewrite Hlt. auto.
Qed.

Lemma inactive_magnitude_noninterference_witness :
  (compute (scenarioMetric (lit 0)) = compute (scenarioMetric (lit 7))) /\
  (exists r, compute (scenarioMetric (lit 0)) = Some r).
Proof.
  split.
  - apply (proj1 inactive_magnitude_noninterference). repeat split.
  - apply (proj2 (proj2 inactive_magnitude_noninterference));
      try reflexivity;
      (eexists; split; [reflexivity | apply Qc_eq_bool_false; vm_compute; reflexivity]).
Defined.

End Noninterference.

(** * Worked scenarios *)

Section Scenarios.

Ltac closed_number :=
  vm_compute; apply (f_equal Fin), Qc_is_canon; vm_compute; reflexivity.

(** The exact outcome of the US distributed-load scenario, whatever the
    unused point magnitude. *)
Lemma scenarioUS_exact (p : number) :
  exists r,
    compute (scenarioUS p) = Some r /\
    R r = lit 0.266893296918 /\
    Vmax r = lit 0.266893296918 /\
    Mmax r = lit 0.203372692251516.
Proof.
  eexists. split; [reflexivity|]. repeat split; closed_number.
Qed.

(** The Metric point-load scenario: reaction 5 kN and peak moment 7.5 kN.m. *)
Lemma scenarioMetric_exact (wv : number) :
  exists r,
    compute (scenarioMetric wv) = Some r /\
    R r = lit 5 /\ Vmax r = lit 5 /\ Mmax r = lit 7.5.
Proof.
  eexists. split; [reflexivity|]. repeat split; closed_number.
Qed.

Lemma approx_lit (v c half : Q) :
  Qle_bool (c - half) v && Qle_bool v (c + half) = true -> approx (lit v) c half.
Proof.
  intros H. apply andb_true_iff in H. destruct H as [Hlo Hhi].
  apply Qle_bool_iff in Hlo, Hhi.
  exists (Q2Qc v). split; [reflexivity|].
  cbn [this Q2Qc]. rewrite Qred_correct. auto.
Qed.

Lemma approx_lit_inv (v c half : Q) :
  approx (lit v) c half -> Qle_bool (c - half) v && Qle_bool v (c + half) = true.
Proof.
  intros (q & [= <-] & Hlo & Hhi). cbn [this Q2Qc] in Hlo, Hhi.
  rewrite Qred_correct in Hlo, Hhi.
  apply andb_true_iff. split; now apply Qle_bool_iff.
Qed.

(** C7, as stated, fails: at span 120 in, E 29000 ksi, I 200 in^4 and
    w 0.001 kip/in [compute] does return a result, but its reaction is not
    0.6773 kN to four decimals and its peak moment is not 10.16 kN.m to
    two. *)
Lemma scenarioUS_not_as_stated :
  exists r,
    compute (scenarioUS (lit 10)) = Some r /\
    ~ approx (R r) 0.6773 0.00005 /\ ~ approx (Mmax r) 10.16 0.005.
Proof.
  destruct (scenarioUS_exact (lit 10)) as (r & Hr & HR & _ & HM).
  exists r. rewrite HR, HM. repeat split; [exact Hr | ..];
    intros H; apply approx_lit_inv in H; vm_compute in H; discriminate H.
Qed.

(** C7, amended.  In the US distributed-load scenario [compute] returns a
    result whose reaction is 0.2669 kN and whose peak moment is
    0.2034 kN.m, each to the four decimals shown. *)
Theorem scenarioUS_values (p : number) :
  exists r,
    compute (scenarioUS p) = Some r /\
    approx (R r) 0.2669 0.00005 /\ approx (Mmax r) 0.2034 0.00005.
Proof.
  destruct (scenarioUS_exact p) as (r & Hr & HR & _ & HM).
  exists r. rewrite HR, HM.
  repeat split; [exact Hr | apply approx_lit; vm_compute; reflexivity ..].
Qed.

End Scenarios.

(** * Laws of [compute] past its gate *)

Section ClosedForm.

Local Open Scope Qc_scope.

(** In the exact model, the record returned on finite non-zero fields. *)
Lemma compute_closedForm (i : Inputs) (s e i0 a : Qc) :
  span i = Fin s -> E i = Fin e -> I i = Fin i0 -> active i = Fin a ->
  s <> 0 -> e <> 0 -> i0 <> 0 -> a <> 0 ->
  compute i = Some (closedForm (units i) (loadType i) s e i0 a).
Proof.
  destruct i as [u sp el il lt wv pv]. unfold active.
  cbn [units span E I loadType w P]. intros -> -> -> Ha Hs He Hi Hq.
  unfold compute, incomplete, normalize, solve, closedForm,
    lengthSI, modulusSI, inertiaSI, loadSI.
  cbn [loadType].
  destruct u, lt; subst; cbn [truthy];
    rewrite ?(proj2 (Qc_eq_bool_false _ _) Hs), ?(proj2 (Qc_eq_bool_false _ _) He),
      ?(proj2 (Qc_eq_bool_false _ _) Hi), ?(proj2 (Qc_eq_bool_false _ _) Hq);
    cbn [negb orb]; js_norm; reflexivity.
Qed.

End ClosedForm.

Section Stiffness.

Local Open Scope Qc_scope.

(** X4.  The stiffness does not reach the forces: on an input that has a
    result, replacing the modulus and the inertia by other non-zero values
    gives a result with the same reaction, the same shear and the same
    moment. *)
Theorem stiffness_moves_deflection_only (i : Inputs) (e' i' : Qc) (r : Results) :
  e' <> 0 -> i' <> 0 -> compute i = Some r ->
  exists r',
    compute (setNumber KE (Fin e') (setNumber KI (Fin i') i)) = Some r' /\
    R r' = R r /\ Vmax r' = Vmax r /\ Mmax r' = Mmax r.
Proof.
  intros He0 Hi0 Hr.
  destruct (incomplete i) eqn:Hgate; [apply compute_None in Hgate; congruence|].
  rewrite (compute_Some i Hgate) in Hr. injection Hr as <-.
  apply incomplete_false in Hgate.
  destruct Hgate as (Hs & _ & _ & Ha).
  destruct i as [u sp el il lt wv pv]. unfold active in Ha.
  cbn [span loadType w P] in Hs, Ha. cbn [setNumber loadType].
  eexists. split.
  - apply compute_Some, incomplete_false. unfold active.
    cbn [span E I loadType w P].
    repeat split; try assumption; eexists; (split; [reflexivity | assumption]).
  - destruct u, lt; repeat split; reflexivity.
Qed.

Lemma stiffness_moves_deflection_only_witness :
  exists r',
    compute (setNumber KE (lit 10000) (setNumber KI (lit 50) initialInputs)) = Some r' /\
    Mmax r' = Mmax (solve UDL (normalize initialInputs)).
Proof.
  destruct (stiffness_moves_deflection_only initialInputs (Q2Qc 10000) (Q2Qc 50)
              (solve UDL (normalize initialInputs)))
    as (r' & Hr' & _ & _ & HM);
    [apply Qc_eq_bool_false; vm_compute; reflexivity
    |apply Qc_eq_bool_false; vm_compute; reflexivity
    |reflexivity|].
  exists r'. split; [exact Hr' | exact HM].
Defined.

End Stiffness.

Section FormEdits.

Local Open Scope Qc_scope.

(** X9.  The unit selector never changes whether a result is shown: with
    [units] replaced and the numbers left as typed, [compute] is [None]
    exactly when it was. *)
Theorem units_selector_keeps_gate (u : Units) (i : Inputs) :
  compute (setUnits u i) = None <-> compute i = None.
Proof.
  rewrite !compute_None. destruct i as [u' sp el il lt wv pv]. reflexivity.
Qed.

Lemma units_selector_keeps_gate_witness :
  compute (setUnits Metric (setNumber Kspan NaN initialInputs)) = None.
Proof. apply units_selector_keeps_gate. reflexivity. Defined.

(** X10.  Whatever the form held before, blanks and zeros included, typing
    non-zero numbers into the span, the modulus, the inertia and the active
    load gives a result, and it is the result of the record that holds
    just those numbers: nothing of the earlier contents is left in it. *)
Theorem retyping_required_fields (i : Inputs) (s e i0 a : Qc) :
  s <> 0 -> e <> 0 -> i0 <> 0 -> a <> 0 ->
  exists r,
    compute (setNumber (activeKey (loadType i)) (Fin a)
               (setNumber KI (Fin i0)
                  (setNumber KE (Fin e) (setNumber Kspan (Fin s) i)))) = Some r /\
    compute {| units := units i; span := Fin s; E := Fin e; I := Fin i0;
               loadType := loadType i; w := Fin a; P := Fin a |} = Some r.
Proof.
  intros Hs He Hi Ha. exists (closedForm (units i) (loadType i) s e i0 a).
  destruct i as [u sp el il lt wv pv]. cbn [units loadType].
  split; destruct lt; cbn [activeKey setNumber];
    rewrite (compute_closedForm _ s e i0 a) by (try assumption; reflexivity);
    reflexivity.
Qed.

Lemma retyping_required_fields_witness :
  compute (setNumber Kw (lit 0.001)
             (setNumber KI (lit 200)
                (setNumber KE (lit 29000)
                   (setNumber Kspan (lit 120)
                      {| units := US; span := NaN; E := lit 0; I := NaN;
                         loadType := UDL; w := NaN; P := NaN |}))))
  <> None.
Proof.
  destruct (retyping_required_fields
              {| units := US; span := NaN; E := lit 0; I := NaN;
                 loadType := UDL; w := NaN; P := NaN |}
              (Q2Qc 120) (Q2Qc 29000) (Q2Qc 200) (Q2Qc 0.001))
    as (r & Hr & _);
    try (apply Qc_eq_bool_false; vm_compute; reflexivity).
  intros H. change (compute _) with
    (compute (setNumber Kw (Fin (Q2Qc 0.001))
               (setNumber KI (Fin (Q2Qc 200))
                  (setNumber KE (Fin (Q2Qc 29000))
                     (setNumber Kspan (Fin (Q2Qc 120))
                        {| units := US; span := NaN; E := lit 0; I := NaN;
                           loadType := UDL; w := NaN; P := NaN |}))))) in H.
  change (activeKey (loadType _)) with Kw in Hr.
  rewrite Hr in H. discriminate H.
Defined.

(** X11.  An edit of a numeric field is seen under its own key and under no
    other: the field then shows the number stored, every other field shows
    what it showed, both selectors keep their value, a second edit of the
    same field wins, and edits of different fields commute. *)
Theorem number_edits_are_fieldwise (k k' : NumericKey) (v v' : number) (i : Inputs) :
  getNumber k (setNumber k v i) = v /\
  (k <> k' -> getNumber k' (setNumber k v i) = getNumber k' i) /\
  units (setNumber k v i) = units i /\
  loadType (setNumber k v i) = loadType i /\
  setNumber k v (setNumber k v' i) = setNumber k v i /\
  (k <> k' -> setNumber k v (setNumber k' v' i) = setNumber k' v' (setNumber k v i)).
Proof.
  destruct i as [u sp el il lt wv pv].
  destruct k, k'; cbn; repeat split; intros; try reflexivity; contradiction.
Qed.

Lemma number_edits_are_fieldwise_witness :
  getNumber KE (setNumber Kspan NaN initialInputs) = lit 29000.
Proof.
  rewrite (proj1 (proj2 (number_edits_are_fieldwise Kspan KE NaN NaN initialInputs)));
    [reflexivity | discriminate].
Defined.

End FormEdits.
